(** * The scoring gateway of the loan scout dashboard ([src/services/api.ts])

    A shallow embedding of the three gateway operations [getCreditScore],
    [getFinancialHealth] and [getAssetRecommendation], over a small model of
    the JavaScript values they inspect: the JSON payload of a response, the
    errors the transport rejects with, and the engine coercions ([||],
    [<=], [ToString], [Array.prototype.join]) the source relies on.

    With them: the base URL the client is created with, and the handler
    [testBackend] of [components/BackendIntegrationTest.tsx], which calls
    [getCreditScore] and keeps the outcome in the state of the component. *)

From Stdlib Require Import List String ZArith Lia.
From Stdlib Require Import Floats.
Import ListNotations.

Set Warnings "-inexact-float".
Local Open Scope string_scope.

(** ** JavaScript values *)

(** What [JSON.parse] can deliver as [response.data], plus [undefined] (the
    value of a missing property).  A number is an IEEE 754 binary64, as in
    the language.  An object is its table of own properties. *)
#[local] Unset Elimination Schemes.
Inductive value : Type :=
| VUndefined
| VNull
| VBool (b : bool)
| VNum (n : float)
| VStr (s : string)
| VArr (elems : list value)
| VObj (props : list (string * value)).
#[local] Set Elimination Schemes.

(** The response object axios hands over; only [data] is read by the gateway. *)
Record AxiosResponse : Type := { status : Z; data : value }.

(** What can be thrown and caught around the gateway: the transport's own
    error ([response] is absent when no reply was received), a plain
    [new Error(message)], and a [TypeError] raised by the engine (its
    message text is the engine's and is not modelled). *)
Inductive thrown : Type :=
| AxiosError (message : string) (response : option AxiosResponse)
| Error (message : string)
| TypeError.

(** Completion of an evaluation: a value, or an abrupt [throw]. *)
Inductive completion (A : Type) : Type :=
| Normal (a : A)
| Throw (e : thrown).
Arguments Normal {A} a.
Arguments Throw {A} e.

Definition bind {A B : Type} (c : completion A) (k : A -> completion B) : completion B :=
  match c with
  | Normal a => k a
  | Throw e => Throw e
  end.

Notation "x <- c ;; k" := (bind c (fun x => k))
  (at level 61, c at next level, right associativity).

(** [try { body } catch (error) { handler }] *)
Definition try_catch {A : Type} (body : completion A) (handler : thrown -> completion A)
  : completion A :=
  match body with
  | Normal a => Normal a
  | Throw e => handler e
  end.

(** The settled promise of [apiClient.post]. *)
Inductive settled : Type :=
| Fulfilled (r : AxiosResponse)
| Rejected (e : thrown).

(** [await p] *)
Definition await (p : settled) : completion AxiosResponse :=
  match p with
  | Fulfilled r => Normal r
  | Rejected e => Throw e
  end.

(** [axios.isAxiosError(error)] *)
Definition isAxiosError (error : thrown) : bool :=
  match error with
  | AxiosError _ _ => true
  | _ => false
  end.

(** ** Property access *)

Fixpoint own (k : string) (props : list (string * value)) : option value :=
  match props with
  | [] => None
  | (k', v) :: rest => if String.eqb k k' then Some v else own k rest
  end.

Definition nullish (v : value) : bool :=
  match v with
  | VUndefined | VNull => true
  | _ => false
  end.

Definition is_undefined (v : value) : bool :=
  match v with
  | VUndefined => true
  | _ => false
  end.

(** [v.k] for a key [k] that no built-in prototype defines ([score],
    [credit_score], [probability], [detail], [msg]): reading it off
    [undefined] or [null] is a [TypeError]; off an object it is the own
    property; off anything else it is [undefined]. *)
Definition get (v : value) (k : string) : completion value :=
  match v with
  | VUndefined | VNull => Throw TypeError
  | VObj props =>
      match own k props with
      | Some x => Normal x
      | None => Normal VUndefined
      end
  | _ => Normal VUndefined
  end.

(** [v?.k], same keys: short-circuits to [undefined] on a nullish [v]. *)
Definition get_opt (v : value) (k : string) : value :=
  match v with
  | VObj props =>
      match own k props with
      | Some x => x
      | None => VUndefined
      end
  | _ => VUndefined
  end.

(** ** Coercions *)

(** [ToBoolean] *)
Definition truthy (v : value) : bool :=
  match v with
  | VUndefined | VNull => false
  | VBool b => b
  | VNum n => negb (is_zero n || is_nan n)
  | VStr s => negb (String.eqb s "")
  | VArr _ | VObj _ => true
  end.

(** [a || b] on values already evaluated ([b] has no effect in the source). *)
Definition or_else (a b : value) : value := if truthy a then a else b.

(** ** Induction on values *)

Section ValueInduction.

Variable P : value -> Prop.
Hypothesis P_undefined : P VUndefined.
Hypothesis P_null : P VNull.
Hypothesis P_bool : forall b, P (VBool b).
Hypothesis P_num : forall n, P (VNum n).
Hypothesis P_str : forall s, P (VStr s).
Hypothesis P_arr : forall elems, Forall P elems -> P (VArr elems).
Hypothesis P_obj : forall props, P (VObj props).

(** Structural induction that reaches the elements of an array (the
    properties of an object are not needed: no coercion descends into them). *)
Fixpoint value_elements_ind (v : value) : P v :=
  match v with
  | VUndefined => P_undefined
  | VNull => P_null
  | VBool b => P_bool b
  | VNum n => P_num n
  | VStr s => P_str s
  | VArr elems =>
      P_arr elems ((fix all (l : list value) : Forall P l :=
                match l with
                | [] => Forall_nil P
                | x :: rest => Forall_cons x (value_elements_ind x) (all rest)
                end) elems)
  | VObj props => P_obj props
  end.

End ValueInduction.

(** ** Concrete responses and failures *)

(** A reply the backend can give that has neither [score] nor [credit_score]. *)
Definition queued_reply : AxiosResponse :=
  {| status := 200; data := VObj [("status", VStr "queued")] |}.

(** The legacy shape, [{ "score": 700, "probability": 0.3 }]. *)
Definition legacy_reply : AxiosResponse :=
  {| status := 200;
     data := VObj [("score", VNum 700%float); ("probability", VNum 0.3%float)] |}.

(** The legacy shape without a probability, [{ "score": 700 }]. *)
Definition score_only_reply : AxiosResponse :=
  {| status := 200; data := VObj [("score", VNum 700%float)] |}.

(** The canonical shape. *)
Definition canonical_reply : AxiosResponse :=
  {| status := 200;
     data := VObj [ ("credit_score", VNum 712%float);
                    ("probability_of_default", VNum 0.08%float);
                    ("risk_tier", VStr "LOW");
                    ("recommended_loan_amount", VNum 2500000%float);
                    ("recommended_tenor_months", VNum 24%float);
                    ("currency", VStr "NGN");
                    ("explainability",
                      VObj [ ("top_positive_factors",
                               VArr [VObj [("feature", VStr "PAY_0");
                                           ("impact", VNum 0.4%float)]]);
                             ("top_negative_factors", VArr []) ]) ] |}.

(** A 2xx reply with an empty body parsed as [null]. *)
Definition null_reply : AxiosResponse := {| status := 200; data := VNull |}.

(** Connection refused: no response. *)
Definition network_failure : settled := Rejected (AxiosError "Network Error" None).

(** A 422 whose body lists two validation errors. *)
Definition validation_failure : settled :=
  Rejected (AxiosError "Request failed with status code 422"
    (Some {| status := 422;
             data := VObj [("detail",
                      VArr [ VObj [("msg", VStr "age required")];
                             VObj [("msg", VStr "limit required")] ])] |})).

(** A 422 whose body lists one validation error with an empty text. *)
Definition empty_msg_failure : settled :=
  Rejected (AxiosError "Request failed with status code 422"
    (Some {| status := 422;
             data := VObj [("detail", VArr [ VObj [("msg", VStr "")] ])] |})).

(** ** The state of the connection test ([components/BackendIntegrationTest.tsx])

    The three [useState] cells of the component, their setters, the test
    that disables the button and the condition of the red box.  What the
    green box prints of [result] is not modelled. *)
Module BackendIntegrationTest.

Inductive Status : Type := IDLE | LOADING | SUCCESS | ERROR.

Record State : Type := { status : Status; result : value; error : option string }.

(** [useState('IDLE')], [useState(null)], [useState(null)] *)
Definition initial : State := {| status := IDLE; result := VNull; error := None |}.

Definition setStatus (st : Status) (s : State) : State :=
  {| status := st; result := result s; error := error s |}.

Definition setResult (v : value) (s : State) : State :=
  {| status := status s; result := v; error := error s |}.

Definition setError (e : option string) (s : State) : State :=
  {| status := status s; result := result s; error := e |}.

(** [disabled={status === 'LOADING'}] *)
Definition button_disabled (s : State) : bool :=
  match status s with
  | LOADING => true
  | _ => false
  end.

(** [{error && (...)}]: the red box is rendered for a non-empty text. *)
Definition shows_error (s : State) : bool :=
  match error s with
  | Some text => negb (String.eqb text "")
  | None => false
  end.

(** [err.message], for what [api.getCreditScore] can reject with;
    [type_error_text] is the text the engine gave the [TypeError]. *)
Definition message_of (type_error_text : string) (err : thrown) : string :=
  match err with
  | AxiosError message _ => message
  | Error message => message
  | TypeError => type_error_text
  end.

End BackendIntegrationTest.

(** A 422 whose [detail] is an empty list. *)
Definition empty_list_failure : settled :=
  Rejected (AxiosError "Request failed with status code 422"
    (Some {| status := 422; data := VObj [("detail", VArr [])] |})).

(** A 404 whose [detail] is an object. *)
Definition object_detail_failure : settled :=
  Rejected (AxiosError "Request failed with status code 404"
    (Some {| status := 404;
             data := VObj [("detail", VObj [("code", VStr "not_found")])] |})).

(** The legacy shape with a [null] probability. *)
Definition null_probability_reply : AxiosResponse :=
  {| status := 200;
     data := VObj [("score", VNum 640%float); ("probability", VNull)] |}.

(** The legacy shape with a high probability. *)
Definition risky_reply : AxiosResponse :=
  {| status := 200;
     data := VObj [("score", VNum 410%float); ("probability", VNum 0.9%float)] |}.

(** A 422 whose [detail] list holds a [null]. *)
Definition null_entry_failure : settled :=
  Rejected (AxiosError "Request failed with status code 422"
    (Some {| status := 422;
             data := VObj [("detail",
                      VArr [ VObj [("msg", VStr "age required")]; VNull ])] |})).

(** A rendering and a reading of numbers to run the gateway with on concrete
    payloads.  No payload evaluated with them below renders a number or reads
    a string as one. *)
Definition render_placeholder (_ : float) : string := "NaN".
Definition read_placeholder (_ : string) : float := nan.

Section Engine.

(** The engine's [Number::toString] and [StringToNumber]: outside the
    repository, taken as they are. *)
Variable NumberToString : float -> string.
Variable StringToNumber : string -> float.

(** [ToString].  An array renders as [join(",")], whose elements
    [undefined] and [null] render empty.  A plain object renders through
    [Object.prototype.toString]; when the payload gave it an own
    [toString] property (never callable, coming from JSON), neither
    [toString] nor [valueOf] yields a primitive and the conversion is a
    [TypeError]. *)
Fixpoint ToString (v : value) : completion string :=
  match v with
  | VUndefined => Normal "undefined"
  | VNull => Normal "null"
  | VBool b => Normal (if b then "true" else "false")
  | VNum n => Normal (NumberToString n)
  | VStr s => Normal s
  | VArr elems =>
      ss <- (fix each (l : list value) : completion (list string) :=
               match l with
               | [] => Normal []
               | x :: rest =>
                   s <- (if nullish x then Normal "" else ToString x) ;;
                   ss <- each rest ;;
                   Normal (s :: ss)
               end) elems ;;
      Normal (String.concat "," ss)
  | VObj props =>
      match own "toString" props with
      | Some _ => Throw TypeError
      | None => Normal "[object Object]"
      end
  end.

(** The strings [Array.prototype.join] puts between separators. *)
Fixpoint element_strings (l : list value) : completion (list string) :=
  match l with
  | [] => Normal []
  | x :: rest =>
      s <- (if nullish x then Normal "" else ToString x) ;;
      ss <- element_strings rest ;;
      Normal (s :: ss)
  end.

(** [l.join(sep)] *)
Definition join (sep : string) (l : list value) : completion string :=
  ss <- element_strings l ;;
  Normal (String.concat sep ss).

(** [ToNumber].  For an array or an object, [valueOf] returns the object
    itself, so the primitive is the one [ToString] computes. *)
Definition ToNumber (v : value) : completion float :=
  match v with
  | VUndefined => Normal nan
  | VNull => Normal 0%float
  | VBool b => Normal (if b then 1%float else 0%float)
  | VNum n => Normal n
  | VStr s => Normal (StringToNumber s)
  | VArr _ | VObj _ => s <- ToString v ;; Normal (StringToNumber s)
  end.

(** [v <= c] against a number literal [c]: both sides as numbers, false
    when [v] converts to NaN. *)
Definition le_literal (v : value) (c : float) : completion bool :=
  n <- ToNumber v ;;
  Normal (n <=? c)%float.

(** [new Error(arg)] *)
Definition new_Error (arg : value) : completion thrown :=
  match arg with
  | VUndefined => Normal (Error "")
  | _ => m <- ToString arg ;; Normal (Error m)
  end.

(** ** The gateway ([export const api])

    Each operation takes the settled promise of its [apiClient.post] call.
    The [console] calls are left out: their arguments ([error.response?.data]
    read off an error object, [error] itself) evaluate without throwing and
    nothing reads what they print.  In a [catch] block, the [if] on
    [axios.isAxiosError(error)] is the match on [AxiosError]. *)

(** [error.response?.data?.detail] *)
Definition detail_of (response : option AxiosResponse) : value :=
  match response with
  | None => VUndefined
  | Some r => get_opt (data r) "detail"
  end.

(** [(d) => d.msg] over the elements of [detail], left to right. *)
Fixpoint map_msg (l : list value) : completion (list value) :=
  match l with
  | [] => Normal []
  | d :: rest =>
      m <- get d "msg" ;;
      ms <- map_msg rest ;;
      Normal (m :: ms)
  end.

(** [detail?.map((d: any) => d.msg).join(", ")]: [undefined] on a nullish
    [detail]; on an array, the joined [msg]s; on anything else [detail.map]
    is not a function (a JSON value under an own key [map] is not one
    either) and the call is a [TypeError]. *)
Definition detail_messages (detail : value) : completion value :=
  match detail with
  | VUndefined | VNull => Normal VUndefined
  | VArr elems =>
      ms <- map_msg elems ;;
      s <- join ", " ms ;;
      Normal (VStr s)
  | _ => Throw TypeError
  end.

(** The argument of [new Error(...)] in the axios branch of
    [getCreditScore] and [getAssetRecommendation]. *)
Definition api_error_argument (response : option AxiosResponse) : completion value :=
  joined <- detail_messages (detail_of response) ;;
  Normal (or_else (or_else joined (detail_of response)) (VStr "Unknown API error")).

(** [calculatedRisk] of the legacy adapter. *)
Definition calculatedRisk (prob : value) : completion string :=
  low <- le_literal prob 0.25%float ;;
  if low then Normal "LOW"
  else
    medium <- le_literal prob 0.55%float ;;
    Normal (if medium then "MEDIUM" else "HIGH").

(** The test of the adapter:
    [response.data.score !== undefined && response.data.credit_score === undefined] *)
Definition legacy_shape (payload : value) : completion bool :=
  score <- get payload "score" ;;
  if is_undefined score then Normal false
  else
    credit_score <- get payload "credit_score" ;;
    Normal (is_undefined credit_score).

(** The object literal the adapter returns. *)
Definition adapted (score prob : value) (risk : string) : value :=
  VObj [ ("credit_score", score);
         ("probability_of_default", prob);
         ("risk_tier", VStr risk);
         ("recommended_loan_amount", VNum 1000000%float);
         ("recommended_tenor_months", VNum 12%float);
         ("explainability",
           VObj [ ("top_positive_factors", VArr []);
                  ("top_negative_factors", VArr []) ]) ].

(** The [try] block of [getCreditScore]. *)
Definition getCreditScore_try (post : settled) : completion value :=
  response <- await post ;;
  legacy <- legacy_shape (data response) ;;
  if legacy then
    probability <- get (data response) "probability" ;;
    let prob := or_else probability (VNum 0%float) in
    risk <- calculatedRisk prob ;;
    score <- get (data response) "score" ;;
    Normal (adapted score prob risk)
  else Normal (data response).

(** Its [catch] block. *)
Definition getCreditScore_catch (error : thrown) : completion value :=
  match error with
  | AxiosError _ response =>
      arg <- api_error_argument response ;;
      e <- new_Error arg ;;
      Throw e
  | _ => Throw (Error "Failed to fetch credit score")
  end.

Definition getCreditScore (post : settled) : completion value :=
  try_catch (getCreditScore_try post) getCreditScore_catch.

Definition getFinancialHealth_try (post : settled) : completion value :=
  response <- await post ;;
  Normal (data response).

Definition getFinancialHealth_catch (error : thrown) : completion value :=
  match error with
  | AxiosError error_message response =>
      let message := or_else (detail_of response) (VStr error_message) in
      m <- ToString message ;;
      e <- new_Error (VStr ("Financial Health API Error: " ++ m)) ;;
      Throw e
  | _ => Throw (Error "Failed to fetch financial health")
  end.

Definition getFinancialHealth (post : settled) : completion value :=
  try_catch (getFinancialHealth_try post) getFinancialHealth_catch.

Definition getAssetRecommendation_try (post : settled) : completion value :=
  response <- await post ;;
  Normal (data response).

Definition getAssetRecommendation_catch (error : thrown) : completion value :=
  match error with
  | AxiosError _ response =>
      arg <- api_error_argument response ;;
      e <- new_Error arg ;;
      Throw e
  | _ => Throw (Error "Failed to fetch asset recommendation")
  end.

Definition getAssetRecommendation (post : settled) : completion value :=
  try_catch (getAssetRecommendation_try post) getAssetRecommendation_catch.

(** ** What the specification asks of a result *)

(** The required fields of a [CreditScoreResponse]. *)
Definition required_fields : list string :=
  [ "credit_score"; "probability_of_default"; "risk_tier";
    "recommended_loan_amount"; "recommended_tenor_months"; "explainability" ].

(** Every required field is present. *)
Definition fully_populated (v : value) : bool :=
  forallb (fun k => negb (is_undefined (get_opt v k))) required_fields.

(** The evaluation [c] returns an object whose [risk_tier] is [tier]. *)
Definition returns_tier (c : completion value) (tier : string) : Prop :=
  exists v, c = Normal v /\ get_opt v "risk_tier" = VStr tier.

(** Neither an array nor an object. *)
Definition primitive (v : value) : bool :=
  match v with
  | VArr _ | VObj _ => false
  | _ => true
  end.

(** [d] is an entry of a validation error list carrying the text [s] under [msg]. *)
Definition is_entry (d : value) (s : string) : Prop :=
  exists props, d = VObj props /\ own "msg" props = Some (VStr s).

(** ** The base URL ([API_BASE_URL])

    [`${API_URL}/api`], where [API_URL] is what [import.meta.env] holds
    under [VITE_API_BASE_URL]: a string, or [undefined] when it is not set. *)
Definition API_BASE_URL (API_URL : value) : completion string :=
  s <- ToString API_URL ;;
  Normal (s ++ "/api").

(** An object on which [Object.prototype.toString] is reached. *)
Definition plain_object (v : value) : Prop :=
  exists props, v = VObj props /\ own "toString" props = None.

(** ** The connection test ([testBackend])

    The state once the handler has run to its end, from the state [s] it
    was started in and the promise [post] its request settles with.  The
    request itself is the constant [dummyRequest]. *)
Definition testBackend (type_error_text : string) (post : settled)
    (s : BackendIntegrationTest.State) : BackendIntegrationTest.State :=
  let s := BackendIntegrationTest.setStatus BackendIntegrationTest.LOADING s in
  let s := BackendIntegrationTest.setError None s in
  match getCreditScore post with
  | Normal response =>
      let s := BackendIntegrationTest.setResult response s in
      BackendIntegrationTest.setStatus BackendIntegrationTest.SUCCESS s
  | Throw err =>
      let s := BackendIntegrationTest.setStatus BackendIntegrationTest.ERROR s in
      let message := BackendIntegrationTest.message_of type_error_text err in
      BackendIntegrationTest.setError
        (Some (if String.eqb message "" then "Failed to connect to backend" else message))
        s
  end.

(** The tier the thresholds give a number. *)
Definition threshold_tier (p : float) : string :=
  if (p <=? 0.25)%float then "LOW"
  else if (p <=? 0.55)%float then "MEDIUM" else "HIGH".

(** ** Order of binary64 numbers

    What the thresholds need of [<=?] and [<?], from their specification on
    [spec_float]. *)

Lemma SFcompare_antisym (x y : spec_float) :
  SFcompare y x = option_map CompOpp (SFcompare x y).
Proof.
  destruct x as [sx | sx | | sx mx ex], y as [sy | sy | | sy my ey]; simpl;
    try reflexivity;
    try (destruct sx; reflexivity); try (destruct sy; reflexivity);
    try (destruct sx, sy; reflexivity).
  change (Pos.compare_cont Eq my mx) with (Pos.compare my mx).
  change (Pos.compare_cont Eq mx my) with (Pos.compare mx my).
  rewrite (Z.compare_antisym ex ey), (Pos.compare_antisym mx my).
  destruct sx, sy; simpl; try reflexivity;
    destruct (Z.compare ex ey); simpl; try reflexivity;
    destruct (Pos.compare mx my); reflexivity.
Qed.

Lemma SFcompare_trans_lt (x y z : spec_float) :
  SFcompare x y = Some Lt -> SFcompare y z = Some Lt -> SFcompare x z = Some Lt.
Proof.
  destruct x as [sx | sx | | sx mx ex], y as [sy | sy | | sy my ey],
    z as [sz | sz | | sz mz ez]; simpl;
    try discriminate; try tauto;
    try (destruct sx; simpl; try discriminate; try tauto);
    try (destruct sy; simpl; try discriminate; try tauto);
    try (destruct sz; simpl; try discriminate; try tauto).
  all: change (Pos.compare_cont Eq mx my) with (Pos.compare mx my);
    change (Pos.compare_cont Eq my mz) with (Pos.compare my mz);
    change (Pos.compare_cont Eq mx mz) with (Pos.compare mx mz);
    destruct (Z.compare_spec ex ey), (Z.compare_spec ey ez), (Z.compare_spec ex ez);
    destruct (Pos.compare_spec mx my), (Pos.compare_spec my mz), (Pos.compare_spec mx mz);
    simpl; intros; try discriminate; try reflexivity; exfalso; lia.
Qed.

Lemma SFcompare_lt_not_nan (x y : spec_float) :
  SFcompare x y = Some Lt -> SFcompare y y = Some Eq.
Proof.
  destruct x as [sx | sx | | sx mx ex], y as [sy | sy | | sy my ey]; simpl;
    try discriminate; intros _; try reflexivity;
    try (destruct sy; reflexivity).
  all: change (Pos.compare_cont Eq my my) with (Pos.compare my my);
    rewrite Z.compare_refl, Pos.compare_refl; destruct sy; reflexivity.
Qed.

Lemma ltb_trans (a b c : float) :
  (a <? b)%float = true -> (b <? c)%float = true -> (a <? c)%float = true.
Proof.
  rewrite !ltb_spec. unfold SFltb.
  destruct (SFcompare (Prim2SF a) (Prim2SF b)) as [[ | | ] | ] eqn:Hab; try discriminate.
  destruct (SFcompare (Prim2SF b) (Prim2SF c)) as [[ | | ] | ] eqn:Hbc; try discriminate.
  intros _ _. now rewrite (SFcompare_trans_lt _ _ _ Hab Hbc).
Qed.

Lemma ltb_leb_false (a b : float) :
  (a <? b)%float = true -> (b <=? a)%float = false.
Proof.
  rewrite ltb_spec, leb_spec. unfold SFltb, SFleb.
  rewrite (SFcompare_antisym (Prim2SF a) (Prim2SF b)).
  destruct (SFcompare (Prim2SF a) (Prim2SF b)) as [[ | | ] | ]; simpl;
    intros; try discriminate; reflexivity.
Qed.

(** A number above a positive literal is neither zero nor NaN: [||] keeps it. *)
Lemma above_positive_truthy (c p : float) :
  (0 <? c)%float = true -> (c <? p)%float = true -> truthy (VNum p) = true.
Proof.
  intros Hc Hp. pose proof (ltb_trans _ _ _ Hc Hp) as H0.
  simpl. unfold is_zero, is_nan. change zero with 0%float.
  rewrite ltb_spec in H0, Hp. unfold SFltb in H0, Hp.
  rewrite !eqb_spec. unfold SFeqb.
  destruct (SFcompare (Prim2SF c) (Prim2SF p)) as [[ | | ] | ] eqn:Hcp; try discriminate.
  rewrite (SFcompare_lt_not_nan _ _ Hcp).
  rewrite (SFcompare_antisym (Prim2SF 0%float) (Prim2SF p)).
  destruct (SFcompare (Prim2SF 0%float) (Prim2SF p)) as [[ | | ] | ]; simpl;
    try discriminate; reflexivity.
Qed.

(** ** The adapter for the legacy shape *)

Lemma legacy_shape_get (payload : value) :
  legacy_shape payload = Normal true ->
  exists score probability,
    get payload "score" = Normal score /\ is_undefined score = false /\
    get payload "credit_score" = Normal VUndefined /\
    get payload "probability" = Normal probability.
Proof.
  unfold legacy_shape. destruct payload; simpl; try discriminate.
  destruct (own "score" props) as [score | ]; simpl; try discriminate.
  destruct (is_undefined score) eqn:Hs; try discriminate.
  destruct (own "credit_score" props) as [cs | ]; simpl.
  - destruct cs; simpl; try discriminate. intros _.
    exists score. destruct (own "probability" props); eauto.
  - intros _. exists score. destruct (own "probability" props); eauto.
Qed.

(** The result of the adapter, once the tier is computed. *)
Lemma getCreditScore_legacy (r : AxiosResponse) (score probability : value) (risk : string) :
  legacy_shape (data r) = Normal true ->
  get (data r) "score" = Normal score ->
  get (data r) "probability" = Normal probability ->
  calculatedRisk (or_else probability (VNum 0%float)) = Normal risk ->
  getCreditScore (Fulfilled r)
  = Normal (adapted score (or_else probability (VNum 0%float)) risk).
Proof.
  intros Hl Hs Hp Hr. unfold getCreditScore, getCreditScore_try. simpl.
  rewrite Hl. simpl. rewrite Hp. simpl. rewrite Hr. simpl. rewrite Hs. reflexivity.
Qed.

(** The tier of a number. *)
Lemma calculatedRisk_number (n : float) :
  calculatedRisk (VNum n)
  = Normal (if (n <=? 0.25)%float then "LOW"
            else if (n <=? 0.55)%float then "MEDIUM" else "HIGH").
Proof.
  unfold calculatedRisk, le_literal. simpl.
  destruct (n <=? 0.25)%float; reflexivity.
Qed.

(** A payload that is not of the legacy shape, and on which the test does
    not throw, is returned as it is. *)
Lemma getCreditScore_passthrough (r : AxiosResponse) :
  legacy_shape (data r) = Normal false ->
  getCreditScore (Fulfilled r) = Normal (data r).
Proof.
  intros Hl. unfold getCreditScore, getCreditScore_try. simpl.
  rewrite Hl. reflexivity.
Qed.

Lemma getCreditScore_catch_throws (error : thrown) (v : value) :
  getCreditScore_catch error <> Normal v.
Proof.
  destruct error as [m response | m | ]; simpl; try discriminate.
  destruct (api_error_argument response) as [arg | ]; simpl; try discriminate.
  destruct (new_Error arg); simpl; discriminate.
Qed.

Lemma calculatedRisk_primitive (prob : value) :
  primitive prob = true -> exists risk, calculatedRisk prob = Normal risk.
Proof.
  unfold calculatedRisk, le_literal.
  destruct prob; simpl; try discriminate; intros _;
    try match goal with
      | |- context [(?n <=? 0.25)%float] => destruct (n <=? 0.25)%float
      end; simpl; eauto.
Qed.

(** ** The legacy adapter: tiers, defaults, missing probability *)

(** C2: on a payload of the legacy shape whose [probability] is the number
    [p], the returned [risk_tier] is LOW when [p <= 0.25], MEDIUM when
    [0.25 < p <= 0.55] and HIGH when [p > 0.55]; at the four boundary
    values of the specification, 0.25 gives LOW, 0.2501 MEDIUM, 0.55 MEDIUM
    and 0.5501 HIGH. *)
Theorem legacy_risk_tier_thresholds (r : AxiosResponse) (p : float) :
  legacy_shape (data r) = Normal true ->
  get (data r) "probability" = Normal (VNum p) ->
  ((p <=? 0.25)%float = true -> returns_tier (getCreditScore (Fulfilled r)) "LOW") /\
  ((0.25 <? p)%float = true -> (p <=? 0.55)%float = true ->
     returns_tier (getCreditScore (Fulfilled r)) "MEDIUM") /\
  ((0.55 <? p)%float = true -> returns_tier (getCreditScore (Fulfilled r)) "HIGH") /\
  (p = 0.25%float -> returns_tier (getCreditScore (Fulfilled r)) "LOW") /\
  (p = 0.2501%float -> returns_tier (getCreditScore (Fulfilled r)) "MEDIUM") /\
  (p = 0.55%float -> returns_tier (getCreditScore (Fulfilled r)) "MEDIUM") /\
  (p = 0.5501%float -> returns_tier (getCreditScore (Fulfilled r)) "HIGH").
Proof.
  intros Hl Hp.
  destruct (legacy_shape_get _ Hl) as (score & probability & Hs & _ & _ & _).
  assert (Hret : forall risk,
             calculatedRisk (or_else (VNum p) (VNum 0%float)) = Normal risk ->
             returns_tier (getCreditScore (Fulfilled r)) risk).
  { intros risk Hr. eexists. split.
    - apply (getCreditScore_legacy r score (VNum p) risk Hl Hs Hp Hr).
    - reflexivity. }
  assert (Hlow : (p <=? 0.25)%float = true ->
                 returns_tier (getCreditScore (Fulfilled r)) "LOW").
  { intros Hle. apply Hret. unfold or_else.
    destruct (truthy (VNum p)).
    - rewrite calculatedRisk_number, Hle. reflexivity.
    - reflexivity. }
  assert (Hmed : (0.25 <? p)%float = true -> (p <=? 0.55)%float = true ->
                 returns_tier (getCreditScore (Fulfilled r)) "MEDIUM").
  { intros Hlt Hle. apply Hret. unfold or_else.
    rewrite (above_positive_truthy 0.25 p eq_refl Hlt).
    rewrite calculatedRisk_number, (ltb_leb_false _ _ Hlt), Hle. reflexivity. }
  assert (Hhigh : (0.55 <? p)%float = true ->
                  returns_tier (getCreditScore (Fulfilled r)) "HIGH").
  { intros Hlt. apply Hret. unfold or_else.
    rewrite (above_positive_truthy 0.55 p eq_refl Hlt).
    rewrite calculatedRisk_number, (ltb_leb_false _ _ Hlt).
    rewrite (ltb_leb_false _ _ (ltb_trans 0.25 0.55 p eq_refl Hlt)). reflexivity. }
  repeat split; try assumption; intros ->.
  - apply Hlow; reflexivity.
  - apply Hmed; reflexivity.
  - apply Hmed; reflexivity.
  - apply Hhigh; reflexivity.
Qed.

(** C8: on a payload of the legacy shape, whatever [score] and
    [probability] are, a returned result has [recommended_loan_amount]
    1000000, [recommended_tenor_months] 12 and two empty explainability
    lists; and a result is returned whenever [probability] is absent or a
    primitive value (a number in particular). *)
Theorem legacy_defaults (r : AxiosResponse) :
  legacy_shape (data r) = Normal true ->
  (forall v, getCreditScore (Fulfilled r) = Normal v ->
     get_opt v "recommended_loan_amount" = VNum 1000000%float /\
     get_opt v "recommended_tenor_months" = VNum 12%float /\
     get_opt (get_opt v "explainability") "top_positive_factors" = VArr [] /\
     get_opt (get_opt v "explainability") "top_negative_factors" = VArr []) /\
  (forall probability,
     get (data r) "probability" = Normal probability ->
     primitive probability = true ->
     exists v, getCreditScore (Fulfilled r) = Normal v).
Proof.
  intros Hl.
  destruct (legacy_shape_get _ Hl) as (score & probability & Hs & _ & _ & Hp).
  split.
  - intros v. unfold getCreditScore, getCreditScore_try. simpl.
    rewrite Hl. simpl. rewrite Hp. simpl.
    destruct (calculatedRisk (or_else probability (VNum 0%float))) as [risk | e]; simpl.
    + rewrite Hs. simpl. intros [= <-]. repeat split.
    + intros H. now apply getCreditScore_catch_throws in H.
  - intros probability' Hp' Hprim.
    rewrite Hp in Hp'. injection Hp' as <-.
    destruct (calculatedRisk_primitive (or_else probability (VNum 0%float))) as [risk Hr].
    { unfold or_else. destruct (truthy probability); [assumption | reflexivity]. }
    eexists. apply (getCreditScore_legacy r score probability risk Hl Hs Hp Hr).
Qed.

(** C9: on a payload of the legacy shape with no [probability], a result
    is returned, its [probability_of_default] is 0 and its [risk_tier] is
    LOW. *)
Theorem legacy_missing_probability (r : AxiosResponse) :
  legacy_shape (data r) = Normal true ->
  get (data r) "probability" = Normal VUndefined ->
  exists v,
    getCreditScore (Fulfilled r) = Normal v /\
    get_opt v "probability_of_default" = VNum 0%float /\
    get_opt v "risk_tier" = VStr "LOW".
Proof.
  intros Hl Hp.
  destruct (legacy_shape_get _ Hl) as (score & _ & Hs & _ & _ & _).
  exists (adapted score (VNum 0%float) "LOW"). split.
  - apply (getCreditScore_legacy r score VUndefined "LOW" Hl Hs Hp). reflexivity.
  - split; reflexivity.
Qed.

(** ** The canonical shape *)

(** C6: a payload that carries a [credit_score] is returned as it is. *)
Theorem canonical_passthrough (r : AxiosResponse) (credit_score : value) :
  get (data r) "credit_score" = Normal credit_score ->
  is_undefined credit_score = false ->
  getCreditScore (Fulfilled r) = Normal (data r).
Proof.
  intros Hc Hu. apply getCreditScore_passthrough.
  unfold legacy_shape.
  destruct (get (data r) "score") as [score | e] eqn:Hs.
  - simpl. destruct (is_undefined score); [reflexivity | ].
    rewrite Hc. simpl. now rewrite Hu.
  - destruct (data r); simpl in *; try discriminate;
      destruct (own "score" props); discriminate.
Qed.

(** ** Failures *)

(** C10: a caught failure that is not an axios error, whether [post]
    rejected with it or the [try] block raised it, is replaced by a new
    [Error] with the operation's fixed message. *)
Theorem non_axios_failure_messages (post : settled) (e : thrown) :
  isAxiosError e = false ->
  (getCreditScore_try post = Throw e ->
     getCreditScore post = Throw (Error "Failed to fetch credit score")) /\
  (getFinancialHealth_try post = Throw e ->
     getFinancialHealth post = Throw (Error "Failed to fetch financial health")) /\
  (getAssetRecommendation_try post = Throw e ->
     getAssetRecommendation post = Throw (Error "Failed to fetch asset recommendation")).
Proof.
  intros He. unfold getCreditScore, getFinancialHealth, getAssetRecommendation.
  repeat split; intros ->; destruct e; simpl; try reflexivity; discriminate.
Qed.

(** *** Only a [TypeError] or a new [Error] leaves the [catch] blocks *)

Lemma get_throws (v : value) (k : string) (e : thrown) :
  get v k = Throw e -> e = TypeError.
Proof.
  destruct v; simpl; try discriminate; try (now intros [= <-]).
  destruct (own k props); discriminate.
Qed.

Lemma ToString_array (elems : list value) :
  ToString (VArr elems) = join "," elems.
Proof.
  reflexivity.
Qed.

Lemma ToString_throws (v : value) (e : thrown) :
  ToString v = Throw e -> e = TypeError.
Proof.
  revert e. induction v using value_elements_ind; intros e; try discriminate.
  - rewrite ToString_array. unfold join.
    induction H as [ | x rest Hx _ IH]; simpl; [discriminate | ].
    destruct (nullish x); simpl.
    + destruct (element_strings rest); simpl; [discriminate | ].
      intros [= <-]. apply IH. reflexivity.
    + destruct (ToString x) as [s | e'] eqn:Hs; simpl.
      * destruct (element_strings rest); simpl; [discriminate | ].
        intros [= <-]. apply IH. reflexivity.
      * intros [= <-]. now apply Hx.
  - simpl. destruct (own "toString" props); [ | discriminate]. now intros [= <-].
Qed.

Lemma join_throws (sep : string) (l : list value) (e : thrown) :
  join sep l = Throw e -> e = TypeError.
Proof.
  unfold join. induction l as [ | x rest IH]; simpl; [discriminate | ].
  destruct (nullish x); simpl.
  - destruct (element_strings rest); simpl; [discriminate | ].
    intros [= <-]. apply IH. reflexivity.
  - destruct (ToString x) as [s | e'] eqn:Hs; simpl.
    + destruct (element_strings rest); simpl; [discriminate | ].
      intros [= <-]. apply IH. reflexivity.
    + intros [= <-]. now apply ToString_throws in Hs.
Qed.

Lemma map_msg_throws (l : list value) (e : thrown) :
  map_msg l = Throw e -> e = TypeError.
Proof.
  induction l as [ | d rest IH]; simpl; [discriminate | ].
  destruct (get d "msg") eqn:Hd; simpl.
  - destruct (map_msg rest); simpl; [discriminate | ]. intros [= <-]. now apply IH.
  - intros [= <-]. now apply get_throws in Hd.
Qed.

Lemma new_Error_result (arg : value) :
  (exists m, new_Error arg = Normal (Error m)) \/ new_Error arg = Throw TypeError.
Proof.
  assert (H : (exists m, (m <- ToString arg ;; Normal (Error m)) = Normal (Error m))
              \/ (m <- ToString arg ;; Normal (Error m)) = Throw TypeError).
  { destruct (ToString arg) as [m | e] eqn:Hm; simpl.
    - left. now exists m.
    - right. now rewrite (ToString_throws arg e Hm). }
  destruct arg; try exact H. left. now exists "".
Qed.

Lemma api_error_argument_throws (response : option AxiosResponse) (e : thrown) :
  api_error_argument response = Throw e -> e = TypeError.
Proof.
  unfold api_error_argument, detail_messages.
  destruct (detail_of response); simpl; try discriminate; try (now intros [= <-]).
  destruct (map_msg elems) as [ms | e'] eqn:Hm; simpl.
  - destruct (join ", " ms) eqn:Hj; simpl; [discriminate | ].
    intros [= <-]. now apply join_throws in Hj.
  - intros [= <-]. now apply map_msg_throws in Hm.
Qed.

Lemma getCreditScore_catch_not_axios (error e : thrown) :
  getCreditScore_catch error = Throw e -> isAxiosError e = false.
Proof.
  destruct error as [m response | m | ]; simpl; try (now intros [= <-]).
  destruct (api_error_argument response) as [arg | e'] eqn:Ha; simpl.
  - destruct (new_Error_result arg) as [[m' ->] | ->]; simpl; now intros [= <-].
  - apply api_error_argument_throws in Ha. subst e'. now intros [= <-].
Qed.

Lemma or_else_defined (a b : value) :
  is_undefined b = false -> is_undefined (or_else a b) = false.
Proof.
  unfold or_else. destruct a; simpl; try tauto; try discriminate;
    intros Hb; match goal with |- context [if ?c then _ else _] => destruct c end;
    simpl; tauto.
Qed.

(** C1, as the code has it: what [getCreditScore] returns is either the
    fully populated object of the adapter (payload of the legacy shape) or
    the payload of the response itself, not validated (any other payload);
    and what it throws is never the axios error of the transport. *)
Theorem getCreditScore_outcomes (post : settled) :
  match getCreditScore post with
  | Normal v =>
      exists r, post = Fulfilled r /\
        ((legacy_shape (data r) = Normal true /\ fully_populated v = true) \/
         (legacy_shape (data r) = Normal false /\ v = data r))
  | Throw e => isAxiosError e = false
  end.
Proof.
  destruct (getCreditScore post) as [v | e] eqn:Hres.
  - destruct post as [r | e0].
    + exists r. split; [reflexivity | ].
      revert Hres. unfold getCreditScore, getCreditScore_try. simpl.
      destruct (legacy_shape (data r)) as [[ | ] | e] eqn:Hl; simpl.
      * destruct (legacy_shape_get _ Hl) as (score & probability & Hs & Hu & _ & Hp).
        rewrite Hp. simpl.
        destruct (calculatedRisk (or_else probability (VNum 0%float))) as [risk | e];
          simpl.
        -- rewrite Hs. simpl. intros [= <-]. left. split; [reflexivity | ].
           unfold fully_populated. simpl. rewrite Hu.
           rewrite (or_else_defined probability (VNum 0%float) eq_refl). reflexivity.
        -- intros H. now apply getCreditScore_catch_throws in H.
      * intros [= <-]. right. split; reflexivity.
      * intros H. now apply getCreditScore_catch_throws in H.
    + revert Hres. unfold getCreditScore. simpl.
      intros H. now apply getCreditScore_catch_throws in H.
  - revert Hres. unfold getCreditScore, try_catch.
    destruct (getCreditScore_try post); [discriminate | ].
    apply getCreditScore_catch_not_axios.
Qed.

(** C3, as the code has it: an axios error with no [detail] to read (no
    response at all, or a body whose [detail] is absent or [null]) is
    replaced by a new [Error] whose message is the fixed text
    "Unknown API error"; the message of the transport is not used. *)
Theorem no_detail_generic_message (message : string) (response : option AxiosResponse) :
  nullish (detail_of response) = true ->
  getCreditScore (Rejected (AxiosError message response))
  = Throw (Error "Unknown API error").
Proof.
  intros Hn. unfold getCreditScore. simpl. unfold api_error_argument.
  destruct (detail_of response); simpl in *; try discriminate; reflexivity.
Qed.

(** C4, on the code: when the error body carries a string under [detail],
    [detail.map] is not a function and a [TypeError] leaves the [catch]
    block of [getCreditScore] before any [Error] is built; on the same
    failure [getFinancialHealth] does put the string in its message. *)
Theorem string_detail_type_error (message : string) (code : Z) (detail : string) :
  let failure :=
    Rejected (AxiosError message
                (Some {| status := code; data := VObj [("detail", VStr detail)] |})) in
  getCreditScore failure = Throw TypeError /\
  (detail <> "" ->
   getFinancialHealth failure = Throw (Error ("Financial Health API Error: " ++ detail))).
Proof.
  split; [reflexivity | ].
  intros Hd. unfold getFinancialHealth. simpl. unfold or_else. simpl.
  destruct (String.eqb_spec detail ""); [contradiction | reflexivity].
Qed.

(** *** Validation lists *)

Lemma map_msg_entries (ds : list value) (msgs : list string) :
  Forall2 is_entry ds msgs -> map_msg ds = Normal (map VStr msgs).
Proof.
  induction 1 as [ | d s ds msgs (props & -> & Hmsg) _ IH]; simpl; [reflexivity | ].
  now rewrite Hmsg, IH.
Qed.

Lemma join_strings (sep : string) (msgs : list string) :
  join sep (map VStr msgs) = Normal (String.concat sep msgs).
Proof.
  unfold join.
  assert (H : element_strings (map VStr msgs) = Normal msgs).
  { induction msgs as [ | s rest IH]; simpl; [reflexivity | ]. now rewrite IH. }
  now rewrite H.
Qed.

Lemma append_empty (a b : string) : a ++ b = "" -> a = "" /\ b = "".
Proof.
  destruct a; simpl; [now split | discriminate].
Qed.

(** Joining with a separator gives the empty text only from no string or
    from one empty string. *)
Lemma concat_empty (msgs : list string) :
  String.concat ", " msgs = "" -> msgs = [] \/ msgs = [""].
Proof.
  destruct msgs as [ | s [ | s' rest]]; simpl.
  - now left.
  - intros ->. now right.
  - intros H. apply append_empty in H. destruct H as [_ H]. discriminate.
Qed.

(** The join of string texts: when [detail] is a list of entries that
    carry a string under [msg], the message of the thrown [Error] is the
    strings joined with ", ", the list of one empty string apart. *)
Lemma detail_list_joined (message : string) (r : AxiosResponse)
    (ds : list value) (msgs : list string) :
  get_opt (data r) "detail" = VArr ds ->
  Forall2 is_entry ds msgs ->
  msgs <> [""] ->
  getCreditScore (Rejected (AxiosError message (Some r)))
  = Throw (Error (String.concat ", " msgs)).
Proof.
  intros Hd He Hne. unfold getCreditScore. simpl.
  unfold api_error_argument. simpl. rewrite Hd. simpl.
  rewrite (map_msg_entries ds msgs He). simpl.
  rewrite join_strings. simpl. unfold or_else at 2. simpl.
  destruct (String.eqb_spec (String.concat ", " msgs) "") as [Hempty | Hfull]; simpl.
  - destruct (concat_empty msgs Hempty) as [-> | ->]; [ | contradiction].
    inversion He; subst. reflexivity.
  - unfold or_else. simpl.
    destruct (String.eqb_spec (String.concat ", " msgs) ""); [contradiction | ].
    reflexivity.
Qed.

(** C5, on the code: for the body [{ detail: [{ msg: "" }] }] the join of
    the texts is the empty string, which is falsy; [||] moves on to
    [detail] itself and the message of the thrown [Error] is the rendering
    of the list, "[object Object]", not the join.  Wherever the join is not
    empty, whatever the values under [msg] are, the message is the join. *)
Theorem empty_join_falls_through (message : string) (code : Z) :
  let failure :=
    Rejected (AxiosError message
                (Some {| status := code;
                         data := VObj [("detail", VArr [ VObj [("msg", VStr "")] ])] |})) in
  getCreditScore failure = Throw (Error "[object Object]") /\
  getCreditScore failure <> Throw (Error (String.concat ", " [""])) /\
  (forall r ds ms joined,
     get_opt (data r) "detail" = VArr ds ->
     map_msg ds = Normal ms ->
     join ", " ms = Normal joined ->
     joined <> "" ->
     getCreditScore (Rejected (AxiosError message (Some r))) = Throw (Error joined)).
Proof.
  split; [reflexivity | split; [discriminate | ]].
  intros r ds ms joined Hd Hm Hj Hne. unfold getCreditScore. simpl.
  unfold api_error_argument. simpl. rewrite Hd. simpl.
  rewrite Hm. simpl. rewrite Hj. simpl. unfold or_else. simpl.
  destruct (String.eqb_spec joined ""); [contradiction | ]. simpl.
  destruct (String.eqb_spec joined ""); [contradiction | reflexivity].
Qed.

(** C7, as the code has it: [getFinancialHealth] builds its message by a
    policy of its own.  For an axios error it is the text
    "Financial Health API Error: " followed by [detail] itself rendered as a
    string when [detail] is truthy (a list is not joined by [msg]), and
    followed by the message of the transport otherwise; for any other
    failure it is "Failed to fetch financial health". *)
Theorem financial_health_error_policy (message : string) (response : option AxiosResponse) :
  (truthy (detail_of response) = true ->
   forall s, ToString (detail_of response) = Normal s ->
     getFinancialHealth (Rejected (AxiosError message response))
     = Throw (Error ("Financial Health API Error: " ++ s))) /\
  (truthy (detail_of response) = false ->
     getFinancialHealth (Rejected (AxiosError message response))
     = Throw (Error ("Financial Health API Error: " ++ message))) /\
  (forall e, isAxiosError e = false ->
     getFinancialHealth (Rejected e) = Throw (Error "Failed to fetch financial health")).
Proof.
  unfold getFinancialHealth. simpl. unfold or_else. repeat split.
  - intros -> s ->. reflexivity.
  - intros ->. reflexivity.
  - intros e He. destruct e; simpl; try reflexivity; discriminate.
Qed.

(** *** Runs that meet no number conversion

    The concrete responses evaluated below give these results under every
    [NumberToString] and [StringToNumber]. *)

Lemma concrete_runs :
  getCreditScore (Fulfilled queued_reply) = Normal (data queued_reply) /\
  getCreditScore network_failure = Throw (Error "Unknown API error") /\
  getCreditScore empty_msg_failure = Throw (Error "[object Object]") /\
  getFinancialHealth network_failure
  = Throw (Error "Financial Health API Error: Network Error").
Proof.
  repeat split.
Qed.

(** ** Further properties of the legacy adapter *)

Lemma SFcompare_defined (x y : spec_float) (c : comparison) :
  SFcompare x y = Some c -> SFcompare x x = Some Eq /\ SFcompare y y = Some Eq.
Proof.
  destruct x as [sx | sx | | sx mx ex], y as [sy | sy | | sy my ey]; simpl;
    try discriminate; intros _; split;
    try change (Pos.compare_cont Eq mx mx) with (Pos.compare mx mx);
    try change (Pos.compare_cont Eq my my) with (Pos.compare my my);
    rewrite ?Z.compare_refl, ?Pos.compare_refl;
    try reflexivity;
    try (destruct sx; reflexivity); try (destruct sy; reflexivity).
Qed.

Lemma SFleb_trans (x y z : spec_float) :
  SFleb x y = true -> SFleb y z = true -> SFleb x z = true.
Proof.
  unfold SFleb.
  destruct x as [sx | sx | | sx mx ex], y as [sy | sy | | sy my ey],
    z as [sz | sz | | sz mz ez]; simpl;
    try discriminate; try tauto;
    try (destruct sx; simpl; try discriminate; try tauto);
    try (destruct sy; simpl; try discriminate; try tauto);
    try (destruct sz; simpl; try discriminate; try tauto).
  all: change (Pos.compare_cont Eq mx my) with (Pos.compare mx my);
    change (Pos.compare_cont Eq my mz) with (Pos.compare my mz);
    change (Pos.compare_cont Eq mx mz) with (Pos.compare mx mz);
    destruct (Z.compare_spec ex ey), (Z.compare_spec ey ez), (Z.compare_spec ex ez);
    destruct (Pos.compare_spec mx my), (Pos.compare_spec my mz), (Pos.compare_spec mx mz);
    simpl; intros; try discriminate; try reflexivity; exfalso; lia.
Qed.

Lemma leb_trans (a b c : float) :
  (a <=? b)%float = true -> (b <=? c)%float = true -> (a <=? c)%float = true.
Proof.
  rewrite !leb_spec. apply SFleb_trans.
Qed.

Lemma leb_not_nan (a b : float) :
  (a <=? b)%float = true -> is_nan a = false /\ is_nan b = false.
Proof.
  unfold is_nan. rewrite leb_spec, !eqb_spec. unfold SFleb, SFeqb.
  destruct (SFcompare (Prim2SF a) (Prim2SF b)) as [c | ] eqn:Hc; [ | discriminate].
  destruct (SFcompare_defined _ _ _ Hc) as [-> ->]. now split.
Qed.

(** Both zeros compare as the literal [0] does. *)
Lemma zero_leb (p c : float) :
  is_zero p = true -> (p <=? c)%float = (0 <=? c)%float.
Proof.
  unfold is_zero. rewrite eqb_spec, !leb_spec.
  replace (Prim2SF zero) with (S754_zero false) by reflexivity.
  replace (Prim2SF 0%float) with (S754_zero false) by reflexivity.
  unfold SFeqb, SFleb.
  destruct (Prim2SF p) as [s | s | | s m e]; simpl; try discriminate.
  - intros _. destruct (Prim2SF c); reflexivity.
  - destruct s; discriminate.
  - destruct s; discriminate.
Qed.

(** The tier of a numeric probability, once [||] has replaced a zero. *)
Lemma calculatedRisk_probability (p : float) :
  is_nan p = false ->
  calculatedRisk (or_else (VNum p) (VNum 0%float)) = Normal (threshold_tier p).
Proof.
  intros Hnan. unfold or_else, threshold_tier. simpl. rewrite Hnan, Bool.orb_false_r.
  destruct (is_zero p) eqn:Hz; simpl.
  - rewrite (zero_leb p 0.25 Hz). reflexivity.
  - apply calculatedRisk_number.
Qed.

Lemma calculatedRisk_range (prob : value) (risk : string) :
  calculatedRisk prob = Normal risk ->
  risk = "LOW" \/ risk = "MEDIUM" \/ risk = "HIGH".
Proof.
  unfold calculatedRisk.
  destruct (le_literal prob 0.25%float) as [[ | ] | ]; simpl; try discriminate.
  - intros [= <-]. now left.
  - destruct (le_literal prob 0.55%float) as [[ | ] | ]; simpl; try discriminate;
      intros [= <-]; tauto.
Qed.

(** What a returned result of the adapter is made of. *)
Lemma getCreditScore_legacy_inv (r : AxiosResponse) (v : value) :
  legacy_shape (data r) = Normal true ->
  getCreditScore (Fulfilled r) = Normal v ->
  exists score probability risk,
    get (data r) "score" = Normal score /\ is_undefined score = false /\
    get (data r) "probability" = Normal probability /\
    calculatedRisk (or_else probability (VNum 0%float)) = Normal risk /\
    v = adapted score (or_else probability (VNum 0%float)) risk.
Proof.
  intros Hl.
  destruct (legacy_shape_get _ Hl) as (score & probability & Hs & Hu & _ & Hp).
  unfold getCreditScore, getCreditScore_try. simpl.
  rewrite Hl. simpl. rewrite Hp. simpl.
  destruct (calculatedRisk (or_else probability (VNum 0%float))) as [risk | e] eqn:Hr;
    simpl.
  - rewrite Hs. simpl. intros [= <-]. exists score, probability, risk. tauto.
  - intros H. now apply getCreditScore_catch_throws in H.
Qed.

Lemma returns_tier_adapted (score prob : value) (risk tier : string) :
  returns_tier (Normal (adapted score prob risk)) tier <-> risk = tier.
Proof.
  unfold returns_tier. split.
  - intros (v & [= <-] & Ht). simpl in Ht. now injection Ht.
  - intros <-. eexists. split; reflexivity.
Qed.

Lemma getCreditScore_legacy_number (r : AxiosResponse) (p : float) :
  legacy_shape (data r) = Normal true ->
  get (data r) "probability" = Normal (VNum p) ->
  is_nan p = false ->
  exists score prob,
    getCreditScore (Fulfilled r) = Normal (adapted score prob (threshold_tier p)).
Proof.
  intros Hl Hp Hnan.
  destruct (legacy_shape_get _ Hl) as (score & _ & Hs & _ & _ & _).
  exists score, (or_else (VNum p) (VNum 0%float)).
  apply (getCreditScore_legacy r score (VNum p) (threshold_tier p) Hl Hs Hp).
  now apply calculatedRisk_probability.
Qed.

Lemma threshold_tier_low (p : float) :
  threshold_tier p = "LOW" <-> (p <=? 0.25)%float = true.
Proof.
  unfold threshold_tier. destruct (p <=? 0.25)%float; [tauto | ].
  destruct (p <=? 0.55)%float; split; discriminate.
Qed.

Lemma threshold_tier_high (p : float) :
  threshold_tier p = "HIGH" <-> (p <=? 0.55)%float = false /\ (p <=? 0.25)%float = false.
Proof.
  unfold threshold_tier. destruct (p <=? 0.25)%float.
  - split; [discriminate | intros [_ H]; discriminate].
  - destruct (p <=? 0.55)%float; split; try discriminate; try tauto.
    intros [H _]; discriminate.
Qed.

(** X1: on a payload of the legacy shape whose [probability] is falsy
    ([null], [false], [0], [-0], the empty string, or absent), [||]
    replaces it: the result has [probability_of_default] 0 and [risk_tier]
    LOW, and the falsy value itself is not handed on. *)
Theorem legacy_falsy_probability (r : AxiosResponse) (probability : value) :
  legacy_shape (data r) = Normal true ->
  get (data r) "probability" = Normal probability ->
  truthy probability = false ->
  exists v,
    getCreditScore (Fulfilled r) = Normal v /\
    get_opt v "probability_of_default" = VNum 0%float /\
    get_opt v "risk_tier" = VStr "LOW".
Proof.
  intros Hl Hp Hf.
  destruct (legacy_shape_get _ Hl) as (score & _ & Hs & _ & _ & _).
  pose proof (getCreditScore_legacy r score probability "LOW" Hl Hs Hp) as H.
  unfold or_else in H. rewrite Hf in H.
  exists (adapted score (VNum 0%float) "LOW"). split.
  - now apply H.
  - split; reflexivity.
Qed.

(** X2: whatever the legacy payload holds under [probability] (a number
    out of [0, 1], a string, a boolean, a list), a returned result has a
    [risk_tier] among LOW, MEDIUM and HIGH. *)
Theorem legacy_risk_tier_closed (r : AxiosResponse) (v : value) :
  legacy_shape (data r) = Normal true ->
  getCreditScore (Fulfilled r) = Normal v ->
  get_opt v "risk_tier" = VStr "LOW" \/
  get_opt v "risk_tier" = VStr "MEDIUM" \/
  get_opt v "risk_tier" = VStr "HIGH".
Proof.
  intros Hl Hv.
  destruct (getCreditScore_legacy_inv r v Hl Hv)
    as (score & probability & risk & _ & _ & _ & Hr & ->).
  simpl. destruct (calculatedRisk_range _ _ Hr) as [-> | [-> | ->]]; tauto.
Qed.

(** X3: the tier does not decrease with the probability.  For two legacy
    payloads with numeric probabilities [p <= q]: when the second is LOW
    so is the first, and when the first is HIGH so is the second. *)
Theorem legacy_risk_tier_monotone (r1 r2 : AxiosResponse) (p q : float) :
  legacy_shape (data r1) = Normal true ->
  get (data r1) "probability" = Normal (VNum p) ->
  legacy_shape (data r2) = Normal true ->
  get (data r2) "probability" = Normal (VNum q) ->
  (p <=? q)%float = true ->
  (returns_tier (getCreditScore (Fulfilled r2)) "LOW" ->
   returns_tier (getCreditScore (Fulfilled r1)) "LOW") /\
  (returns_tier (getCreditScore (Fulfilled r1)) "HIGH" ->
   returns_tier (getCreditScore (Fulfilled r2)) "HIGH").
Proof.
  intros Hl1 Hp1 Hl2 Hp2 Hle.
  destruct (leb_not_nan p q Hle) as [Hnp Hnq].
  destruct (getCreditScore_legacy_number r1 p Hl1 Hp1 Hnp) as (s1 & b1 & ->).
  destruct (getCreditScore_legacy_number r2 q Hl2 Hp2 Hnq) as (s2 & b2 & ->).
  rewrite !returns_tier_adapted. split.
  - rewrite !threshold_tier_low. intros Hq. exact (leb_trans p q 0.25 Hle Hq).
  - rewrite !threshold_tier_high. intros [H55 H25]. split.
    + destruct (q <=? 0.55)%float eqn:Hq; [ | reflexivity].
      now rewrite (leb_trans p q 0.55 Hle Hq) in H55.
    + destruct (q <=? 0.25)%float eqn:Hq; [ | reflexivity].
      now rewrite (leb_trans p q 0.25 Hle Hq) in H25.
Qed.

(** X4: the object the adapter returns is of the canonical shape: sent
    through [getCreditScore] again as a payload, it comes back unchanged. *)
Theorem adapted_is_canonical (r : AxiosResponse) (v : value) (code : Z) :
  legacy_shape (data r) = Normal true ->
  getCreditScore (Fulfilled r) = Normal v ->
  getCreditScore (Fulfilled {| status := code; data := v |}) = Normal v.
Proof.
  intros Hl Hv.
  destruct (getCreditScore_legacy_inv r v Hl Hv)
    as (score & probability & risk & _ & _ & _ & _ & ->).
  apply getCreditScore_passthrough. reflexivity.
Qed.

(** X5: the adapter copies [score] as it is, a number or not (only
    [undefined] fails its test), and hands on a truthy [probability] as it
    is: no value is converted or checked on the way. *)
Theorem legacy_fields_verbatim (r : AxiosResponse) (v : value) :
  legacy_shape (data r) = Normal true ->
  getCreditScore (Fulfilled r) = Normal v ->
  get (data r) "score" = Normal (get_opt v "credit_score") /\
  (forall probability,
     get (data r) "probability" = Normal probability ->
     truthy probability = true ->
     get_opt v "probability_of_default" = probability).
Proof.
  intros Hl Hv.
  destruct (getCreditScore_legacy_inv r v Hl Hv)
    as (score & probability & risk & Hs & _ & Hp & _ & ->).
  split; [exact Hs | ].
  intros probability' Hp' Ht. rewrite Hp in Hp'. injection Hp' as <-.
  simpl. unfold or_else. now rewrite Ht.
Qed.

(** ** Further properties of the failure paths *)

Lemma calculatedRisk_throws (prob : value) (e : thrown) :
  calculatedRisk prob = Throw e -> e = TypeError.
Proof.
  assert (Hle : forall c e', le_literal prob c = Throw e' -> e' = TypeError).
  { intros c e'. unfold le_literal, ToNumber.
    destruct prob; try (simpl; discriminate);
      match goal with
      | |- context [ToString ?v] =>
          destruct (ToString v) as [s | e0] eqn:Hs; simpl; [discriminate | ];
          intros [= <-]; now apply ToString_throws in Hs
      end. }
  unfold calculatedRisk.
  destruct (le_literal prob 0.25%float) as [[ | ] | e1] eqn:H1; simpl; try discriminate.
  - destruct (le_literal prob 0.55%float) as [b | e2] eqn:H2; simpl; [discriminate | ].
    intros [= <-]. now apply Hle in H2.
  - intros [= <-]. now apply Hle in H1.
Qed.

Lemma getCreditScore_try_throws (r : AxiosResponse) (e : thrown) :
  getCreditScore_try (Fulfilled r) = Throw e -> e = TypeError.
Proof.
  unfold getCreditScore_try. simpl.
  destruct (legacy_shape (data r)) as [[ | ] | e0] eqn:Hl; simpl; try discriminate.
  - destruct (legacy_shape_get _ Hl) as (score & probability & Hs & _ & _ & Hp).
    rewrite Hp. simpl.
    destruct (calculatedRisk (or_else probability (VNum 0%float))) as [risk | e1] eqn:Hr;
      simpl.
    + rewrite Hs. discriminate.
    + intros [= <-]. now apply calculatedRisk_throws in Hr.
  - intros [= <-]. revert Hl. unfold legacy_shape.
    destruct (get (data r) "score") as [score | e1] eqn:Hs; simpl.
    + destruct (is_undefined score); [discriminate | ].
      destruct (get (data r) "credit_score") eqn:Hc; simpl; [discriminate | ].
      intros [= <-]. now apply get_throws in Hc.
    + intros [= <-]. now apply get_throws in Hs.
Qed.

(** What the [catch] block of [getCreditScore] and [getAssetRecommendation]
    throws for a list of entries. *)
Lemma api_error_entries (response : option AxiosResponse)
    (ds : list value) (msgs : list string) :
  detail_of response = VArr ds ->
  Forall2 is_entry ds msgs ->
  msgs <> [""] ->
  (arg <- api_error_argument response ;; e <- new_Error arg ;; @Throw value e)
  = Throw (Error (String.concat ", " msgs)).
Proof.
  intros Hd He Hne. unfold api_error_argument. rewrite Hd. simpl.
  rewrite (map_msg_entries ds msgs He). simpl.
  rewrite join_strings. simpl. unfold or_else at 2. simpl.
  destruct (String.eqb_spec (String.concat ", " msgs) "") as [Hempty | Hfull]; simpl.
  - destruct (concat_empty msgs Hempty) as [-> | ->]; [ | contradiction].
    inversion He; subst. reflexivity.
  - unfold or_else. simpl.
    destruct (String.eqb_spec (String.concat ", " msgs) ""); [contradiction | ].
    reflexivity.
Qed.

Lemma api_error_not_a_list (response : option AxiosResponse) :
  nullish (detail_of response) = false ->
  (forall elems, detail_of response <> VArr elems) ->
  api_error_argument response = Throw TypeError.
Proof.
  intros Hn Hl. unfold api_error_argument.
  destruct (detail_of response); simpl in *; try discriminate; try reflexivity.
  now destruct (Hl elems).
Qed.

Lemma map_msg_nullish_entry (ds : list value) :
  Exists (fun d => nullish d = true) ds -> map_msg ds = Throw TypeError.
Proof.
  induction ds as [ | d rest IH]; intros H; inversion H; subst; simpl.
  - destruct d; simpl in *; try discriminate; reflexivity.
  - destruct (get d "msg") as [m | e] eqn:Hd; simpl.
    + now rewrite IH.
    + now rewrite (get_throws d "msg" e Hd).
Qed.

(** X6: on a fulfilled request, [getCreditScore] throws nothing but a new
    [Error] with its fixed message (a [TypeError] raised while the payload
    is inspected never reaches the caller), and it does so on a payload that
    is [null] or [undefined]; on the same response the two other operations
    return the payload, [null] included. *)
Theorem fulfilled_request_outcomes (r : AxiosResponse) :
  (nullish (data r) = true ->
   getCreditScore (Fulfilled r) = Throw (Error "Failed to fetch credit score")) /\
  (forall e, getCreditScore (Fulfilled r) = Throw e ->
             e = Error "Failed to fetch credit score") /\
  getFinancialHealth (Fulfilled r) = Normal (data r) /\
  getAssetRecommendation (Fulfilled r) = Normal (data r).
Proof.
  repeat split.
  - unfold getCreditScore, getCreditScore_try, legacy_shape. simpl.
    destruct (data r); simpl; try discriminate; reflexivity.
  - intros e. unfold getCreditScore, try_catch.
    destruct (getCreditScore_try (Fulfilled r)) as [v | e0] eqn:Ht; [discriminate | ].
    apply getCreditScore_try_throws in Ht. subst e0. simpl. now intros [= <-].
Qed.

(** X7: when the error body carries under [detail] anything but a list,
    [null] or nothing (a string, empty or not, a number, a boolean, an
    object), [detail.map] is not a function: [getCreditScore] and
    [getAssetRecommendation] both let a [TypeError] out of their [catch]
    block. *)
Theorem non_list_detail_type_error (message : string) (response : option AxiosResponse) :
  nullish (detail_of response) = false ->
  (forall elems, detail_of response <> VArr elems) ->
  getCreditScore (Rejected (AxiosError message response)) = Throw TypeError /\
  getAssetRecommendation (Rejected (AxiosError message response)) = Throw TypeError.
Proof.
  intros Hn Hl.
  unfold getCreditScore, getAssetRecommendation. simpl.
  rewrite (api_error_not_a_list response Hn Hl). split; reflexivity.
Qed.

(** X8: when [detail] is a list with a [null] entry, reading [msg] off
    that entry raises a [TypeError], which leaves [getCreditScore] and
    [getAssetRecommendation] in place of the joined message. *)
Theorem null_entry_type_error (message : string) (response : option AxiosResponse)
    (ds : list value) :
  detail_of response = VArr ds ->
  Exists (fun d => nullish d = true) ds ->
  getCreditScore (Rejected (AxiosError message response)) = Throw TypeError /\
  getAssetRecommendation (Rejected (AxiosError message response)) = Throw TypeError.
Proof.
  intros Hd Hex.
  unfold getCreditScore, getAssetRecommendation. simpl.
  unfold api_error_argument. rewrite Hd. simpl.
  rewrite (map_msg_nullish_entry ds Hex). split; reflexivity.
Qed.

(** X9: the failure policy of [getAssetRecommendation].  On an axios error
    it throws what [getCreditScore] throws: "Unknown API error" when there
    is no [detail] to read, and the texts under [msg] joined with ", " when
    [detail] is a list of entries (a single entry with an empty text
    apart). *)
Theorem asset_recommendation_error_policy (message : string)
    (response : option AxiosResponse) :
  getAssetRecommendation (Rejected (AxiosError message response))
  = getCreditScore (Rejected (AxiosError message response)) /\
  (nullish (detail_of response) = true ->
   getAssetRecommendation (Rejected (AxiosError message response))
   = Throw (Error "Unknown API error")) /\
  (forall ds msgs,
     detail_of response = VArr ds ->
     Forall2 is_entry ds msgs ->
     msgs <> [""] ->
     getAssetRecommendation (Rejected (AxiosError message response))
     = Throw (Error (String.concat ", " msgs))).
Proof.
  split; [reflexivity | split].
  - intros Hn. unfold getAssetRecommendation. simpl. unfold api_error_argument.
    destruct (detail_of response); simpl in *; try discriminate; reflexivity.
  - intros ds msgs Hd He Hne. unfold getAssetRecommendation. simpl.
    exact (api_error_entries response ds msgs Hd He Hne).
Qed.

(** X10: [getFinancialHealth] and [getAssetRecommendation] return nothing
    but the payload of a fulfilled request, and never throw the axios error
    they caught. *)
Theorem sibling_operations_outcomes (post : settled) :
  match getFinancialHealth post with
  | Normal v => exists r, post = Fulfilled r /\ v = data r
  | Throw e => isAxiosError e = false
  end /\
  match getAssetRecommendation post with
  | Normal v => exists r, post = Fulfilled r /\ v = data r
  | Throw e => isAxiosError e = false
  end.
Proof.
  destruct post as [r | [m response | m | ]]; simpl;
    try (split; exists r; split; reflexivity);
    try (split; reflexivity).
  split.
  - unfold getFinancialHealth. simpl.
    destruct (ToString (or_else (detail_of response) (VStr m))) as [s | e] eqn:Hs;
      simpl; [reflexivity | ].
    now rewrite (ToString_throws _ _ Hs).
  - unfold getAssetRecommendation. simpl.
    destruct (api_error_argument response) as [arg | e] eqn:Ha; simpl.
    + destruct (new_Error_result arg) as [[m' ->] | ->]; reflexivity.
    + now rewrite (api_error_argument_throws _ _ Ha).
Qed.

Lemma element_strings_plain (ds : list value) :
  Forall plain_object ds ->
  element_strings ds = Normal (map (fun _ => "[object Object]") ds).
Proof.
  induction 1 as [ | d rest (props & -> & Hown) _ IH]; simpl; [reflexivity | ].
  now rewrite Hown, IH.
Qed.

(** X11: when [detail] is a list of objects, [getFinancialHealth] puts
    the list itself in its template: the message is the prefix followed by
    one "[object Object]" per entry, joined with ",", and the texts under
    [msg] do not appear in it. *)
Theorem financial_health_list_detail (message : string) (r : AxiosResponse)
    (ds : list value) :
  get_opt (data r) "detail" = VArr ds ->
  Forall plain_object ds ->
  getFinancialHealth (Rejected (AxiosError message (Some r)))
  = Throw (Error ("Financial Health API Error: "
                  ++ String.concat "," (map (fun _ => "[object Object]") ds))).
Proof.
  intros Hd Hp. unfold getFinancialHealth. simpl. rewrite Hd.
  unfold or_else. cbn [truthy]. rewrite ToString_array. unfold join.
  now rewrite (element_strings_plain ds Hp).
Qed.

(** ** The base URL *)

(** X12: whatever the environment holds under [VITE_API_BASE_URL], a
    string or nothing, building the base URL does not fail: it is the value
    followed by "/api", so "undefined/api" when the variable is not set and
    "/api" when it is empty. *)
Theorem base_url_without_check (API_URL : value) :
  API_URL = VUndefined \/ (exists url, API_URL = VStr url) ->
  exists host,
    API_BASE_URL API_URL = Normal (host ++ "/api") /\
    (API_URL = VUndefined -> host = "undefined") /\
    (forall url, API_URL = VStr url -> host = url).
Proof.
  intros [-> | [url ->]].
  - exists "undefined". repeat split. discriminate.
  - exists url. repeat split; [discriminate | now intros ? [= <-]].
Qed.

(** ** The connection test *)

(** X13: when [testBackend] has run, whatever the request settled with and
    whatever state it started in, the button is enabled again, the status is
    SUCCESS or ERROR, the error is [null] exactly on SUCCESS and the red box
    is shown exactly on ERROR. *)
Theorem testBackend_settles (type_error_text : string) (post : settled)
    (s : BackendIntegrationTest.State) :
  let s' := testBackend type_error_text post s in
  BackendIntegrationTest.button_disabled s' = false /\
  (BackendIntegrationTest.status s' = BackendIntegrationTest.SUCCESS <->
   BackendIntegrationTest.error s' = None) /\
  (BackendIntegrationTest.status s' = BackendIntegrationTest.ERROR <->
   BackendIntegrationTest.shows_error s' = true) /\
  (BackendIntegrationTest.status s' = BackendIntegrationTest.SUCCESS \/
   BackendIntegrationTest.status s' = BackendIntegrationTest.ERROR).
Proof.
  unfold testBackend. destruct (getCreditScore post) as [v | err]; simpl.
  - repeat split; try discriminate; tauto.
  - unfold BackendIntegrationTest.shows_error. simpl.
    destruct (String.eqb_spec (BackendIntegrationTest.message_of type_error_text err) "")
      as [Hm | Hm]; simpl.
    + repeat split; try discriminate; tauto.
    + destruct (String.eqb_spec (BackendIntegrationTest.message_of type_error_text err) "");
        [contradiction | ].
      repeat split; try discriminate; tauto.
Qed.

(** X14: a run that fails leaves the result of the state it started in
    untouched (an earlier result stays on screen), and shows the message of
    what [getCreditScore] threw, or "Failed to connect to backend" when that
    message is empty: the text shown is never empty. *)
Theorem testBackend_failure (type_error_text : string) (post : settled)
    (s : BackendIntegrationTest.State) (err : thrown) :
  getCreditScore post = Throw err ->
  let s' := testBackend type_error_text post s in
  let message := BackendIntegrationTest.message_of type_error_text err in
  BackendIntegrationTest.result s' = BackendIntegrationTest.result s /\
  exists shown,
    BackendIntegrationTest.error s' = Some shown /\ shown <> "" /\
    (message <> "" -> shown = message) /\
    (message = "" -> shown = "Failed to connect to backend").
Proof.
  intros Hthrow. unfold testBackend. rewrite Hthrow. simpl.
  split; [reflexivity | ].
  destruct (String.eqb_spec (BackendIntegrationTest.message_of type_error_text err) "")
    as [Hm | Hm]; eexists; (split; [reflexivity | ]); repeat split;
    try discriminate; try tauto.
Qed.

(** X15: what the test shows for the failures of the gateway.  A refused
    connection, or an error body without [detail], shows
    "Unknown API error" (neither the message of the transport nor the text
    of the component); a failure that is not an axios error shows
    "Failed to fetch credit score"; and the text of the component,
    "Failed to connect to backend", shows for an empty [detail] list, whose
    joined message is empty. *)
Theorem testBackend_shown_text (type_error_text : string)
    (s : BackendIntegrationTest.State) :
  (forall message response,
     nullish (detail_of response) = true ->
     BackendIntegrationTest.error
       (testBackend type_error_text (Rejected (AxiosError message response)) s)
     = Some "Unknown API error") /\
  (forall e,
     isAxiosError e = false ->
     BackendIntegrationTest.error (testBackend type_error_text (Rejected e) s)
     = Some "Failed to fetch credit score") /\
  (forall message r,
     get_opt (data r) "detail" = VArr [] ->
     BackendIntegrationTest.error
       (testBackend type_error_text (Rejected (AxiosError message (Some r))) s)
     = Some "Failed to connect to backend").
Proof.
  repeat split.
  - intros message response Hn. unfold testBackend, getCreditScore. simpl.
    unfold api_error_argument.
    destruct (detail_of response); simpl in *; try discriminate; reflexivity.
  - intros e He. unfold testBackend, getCreditScore.
    destruct e; simpl in *; try discriminate; reflexivity.
  - intros message r Hd. unfold testBackend, getCreditScore. simpl.
    unfold api_error_argument. simpl. rewrite Hd. reflexivity.
Qed.


(** X17: a test that succeeds followed by a test that fails ends with the
    status ERROR, the red box shown, and the result cell still holding what
    the first test returned: [testBackend] never resets it. *)
Theorem testBackend_stale_result (text1 text2 : string) (post1 post2 : settled)
    (s : BackendIntegrationTest.State) (v : value) (err : thrown) :
  getCreditScore post1 = Normal v ->
  getCreditScore post2 = Throw err ->
  let s' := testBackend text2 post2 (testBackend text1 post1 s) in
  BackendIntegrationTest.status s' = BackendIntegrationTest.ERROR /\
  BackendIntegrationTest.shows_error s' = true /\
  BackendIntegrationTest.result s' = v.
Proof.
  intros H1 H2. unfold testBackend. rewrite H1, H2. simpl.
  unfold BackendIntegrationTest.shows_error. simpl.
  repeat split.
  destruct (String.eqb_spec (BackendIntegrationTest.message_of text2 err) "") as [Hm | Hm];
    [reflexivity | ].
  destruct (String.eqb_spec (BackendIntegrationTest.message_of text2 err) "");
    [contradiction | reflexivity].
Qed.

(** X18: on an axios error, every [Error] that [getFinancialHealth] throws
    has a message that starts with "Financial Health API Error: " (the
    [detail] of the backend never stands alone in it); the only other thing
    thrown is a [TypeError], and not when [detail] is a primitive value. *)
Theorem financial_health_message_prefix (message : string)
    (response : option AxiosResponse) :
  (getFinancialHealth (Rejected (AxiosError message response)) = Throw TypeError \/
   exists s,
     getFinancialHealth (Rejected (AxiosError message response))
     = Throw (Error ("Financial Health API Error: " ++ s))) /\
  (primitive (detail_of response) = true ->
   exists s,
     getFinancialHealth (Rejected (AxiosError message response))
     = Throw (Error ("Financial Health API Error: " ++ s))).
Proof.
  unfold getFinancialHealth. simpl. split.
  - destruct (ToString (or_else (detail_of response) (VStr message))) as [s | e] eqn:Hs;
      simpl.
    + right. now exists s.
    + left. now rewrite (ToString_throws _ _ Hs).
  - intros Hp. unfold or_else.
    destruct (truthy (detail_of response)); [ | eexists; reflexivity].
    destruct (detail_of response); simpl in *; try discriminate; eexists; reflexivity.
Qed.

End Engine.

(** ** The gateway on concrete responses *)

(** C1 fails as stated: the payload of [queued_reply] is handed to the
    caller as it is, with none of the required fields. *)
Lemma raw_payload_escapes :
  getCreditScore render_placeholder read_placeholder (Fulfilled queued_reply)
  = Normal (data queued_reply) /\
  fully_populated (data queued_reply) = false.
Proof.
  split; [ | reflexivity].
  apply (concrete_runs render_placeholder read_placeholder).
Qed.

(** C2 at [{ "score": 700, "probability": 0.3 }]: MEDIUM. *)
Lemma legacy_risk_tier_thresholds_witness :
  returns_tier
    (getCreditScore render_placeholder read_placeholder (Fulfilled legacy_reply))
    "MEDIUM".
Proof.
  exact (proj1 (proj2 (legacy_risk_tier_thresholds render_placeholder read_placeholder
                         legacy_reply 0.3%float eq_refl eq_refl))
           eq_refl eq_refl).
Defined.

(** C8 at [{ "score": 700, "probability": 0.3 }]. *)
Lemma legacy_defaults_witness :
  exists v,
    getCreditScore render_placeholder read_placeholder (Fulfilled legacy_reply) = Normal v /\
    get_opt v "recommended_loan_amount" = VNum 1000000%float /\
    get_opt v "recommended_tenor_months" = VNum 12%float /\
    get_opt (get_opt v "explainability") "top_positive_factors" = VArr [] /\
    get_opt (get_opt v "explainability") "top_negative_factors" = VArr [].
Proof.
  destruct (legacy_defaults render_placeholder read_placeholder legacy_reply eq_refl)
    as [Hfields Hreturns].
  destruct (Hreturns (VNum 0.3%float) eq_refl eq_refl) as [v Hv].
  exists v. split; [exact Hv | exact (Hfields v Hv)].
Defined.

(** C9 at [{ "score": 700 }]. *)
Lemma legacy_missing_probability_witness :
  exists v,
    getCreditScore render_placeholder read_placeholder (Fulfilled score_only_reply)
    = Normal v /\
    get_opt v "probability_of_default" = VNum 0%float /\
    get_opt v "risk_tier" = VStr "LOW".
Proof.
  exact (legacy_missing_probability render_placeholder read_placeholder
           score_only_reply eq_refl eq_refl).
Defined.

(** C6 at [canonical_reply]. *)
Lemma canonical_passthrough_witness :
  getCreditScore render_placeholder read_placeholder (Fulfilled canonical_reply)
  = Normal (data canonical_reply).
Proof.
  exact (canonical_passthrough render_placeholder read_placeholder
           canonical_reply (VNum 712%float) eq_refl eq_refl).
Defined.

(** C10 at a [TypeError] raised inside the [try] block (the payload is
    [null]) and at a plain [Error] the transport rejects with. *)
Lemma non_axios_failure_messages_witness :
  getCreditScore render_placeholder read_placeholder (Fulfilled null_reply)
  = Throw (Error "Failed to fetch credit score") /\
  getFinancialHealth render_placeholder (Rejected (Error "socket hang up"))
  = Throw (Error "Failed to fetch financial health") /\
  getAssetRecommendation render_placeholder (Rejected (Error "socket hang up"))
  = Throw (Error "Failed to fetch asset recommendation").
Proof.
  pose proof (non_axios_failure_messages render_placeholder read_placeholder
                (Fulfilled null_reply) TypeError eq_refl) as [Hcredit _].
  pose proof (non_axios_failure_messages render_placeholder read_placeholder
                (Rejected (Error "socket hang up")) (Error "socket hang up") eq_refl)
    as (_ & Hhealth & Hasset).
  exact (conj (Hcredit eq_refl) (conj (Hhealth eq_refl) (Hasset eq_refl))).
Defined.

(** C3 fails as stated: on a refused connection the message is not the one
    of the transport. *)
Lemma transport_message_not_used :
  getCreditScore render_placeholder read_placeholder network_failure
  = Throw (Error "Unknown API error") /\
  getCreditScore render_placeholder read_placeholder network_failure
  <> Throw (Error "Network Error").
Proof.
  destruct (concrete_runs render_placeholder read_placeholder) as (_ & Hrun & _).
  rewrite Hrun. split; [reflexivity | discriminate].
Qed.

(** C3, amended, at a refused connection. *)
Lemma no_detail_generic_message_witness :
  getCreditScore render_placeholder read_placeholder network_failure
  = Throw (Error "Unknown API error").
Proof.
  exact (no_detail_generic_message render_placeholder read_placeholder
           "Network Error" None eq_refl).
Defined.

(** The join at the two validation errors of the specification. *)
Lemma detail_list_joined_witness :
  getCreditScore render_placeholder read_placeholder validation_failure
  = Throw (Error "age required, limit required").
Proof.
  refine (detail_list_joined render_placeholder read_placeholder
            "Request failed with status code 422"
            {| status := 422;
               data := VObj [("detail",
                        VArr [ VObj [("msg", VStr "age required")];
                               VObj [("msg", VStr "limit required")] ])] |}
            [ VObj [("msg", VStr "age required")];
              VObj [("msg", VStr "limit required")] ]
            ["age required"; "limit required"] eq_refl _ _).
  - repeat constructor; eexists; split; reflexivity.
  - discriminate.
Defined.

(** C7 fails as stated: on a refused connection the two operations build
    different messages. *)
Lemma error_policies_differ :
  getFinancialHealth render_placeholder network_failure
  = Throw (Error "Financial Health API Error: Network Error") /\
  getCreditScore render_placeholder read_placeholder network_failure
  = Throw (Error "Unknown API error") /\
  getFinancialHealth render_placeholder network_failure
  <> getCreditScore render_placeholder read_placeholder network_failure.
Proof.
  destruct (concrete_runs render_placeholder read_placeholder)
    as (_ & Hcredit & _ & Hhealth).
  rewrite Hcredit, Hhealth. repeat split; discriminate.
Qed.

(** ** The further properties on concrete responses *)

(** X1 at [{ "score": 640, "probability": null }]. *)
Lemma legacy_falsy_probability_witness :
  exists v,
    getCreditScore render_placeholder read_placeholder (Fulfilled null_probability_reply)
    = Normal v /\
    get_opt v "probability_of_default" = VNum 0%float /\
    get_opt v "risk_tier" = VStr "LOW".
Proof.
  exact (legacy_falsy_probability render_placeholder read_placeholder
           null_probability_reply VNull eq_refl eq_refl eq_refl).
Defined.

(** X2 at [{ "score": 410, "probability": 0.9 }]. *)
Lemma legacy_risk_tier_closed_witness :
  let v := adapted (VNum 410%float) (VNum 0.9%float) "HIGH" in
  get_opt v "risk_tier" = VStr "LOW" \/
  get_opt v "risk_tier" = VStr "MEDIUM" \/
  get_opt v "risk_tier" = VStr "HIGH".
Proof.
  exact (legacy_risk_tier_closed render_placeholder read_placeholder risky_reply
           (adapted (VNum 410%float) (VNum 0.9%float) "HIGH") eq_refl eq_refl).
Defined.

(** X3 at the probabilities 0.3 and 0.9. *)
Lemma legacy_risk_tier_monotone_witness :
  (returns_tier
     (getCreditScore render_placeholder read_placeholder (Fulfilled risky_reply)) "LOW" ->
   returns_tier
     (getCreditScore render_placeholder read_placeholder (Fulfilled legacy_reply)) "LOW") /\
  (returns_tier
     (getCreditScore render_placeholder read_placeholder (Fulfilled legacy_reply)) "HIGH" ->
   returns_tier
     (getCreditScore render_placeholder read_placeholder (Fulfilled risky_reply)) "HIGH").
Proof.
  exact (legacy_risk_tier_monotone render_placeholder read_placeholder
           legacy_reply risky_reply 0.3%float 0.9%float
           eq_refl eq_refl eq_refl eq_refl eq_refl).
Defined.

(** X4 at [{ "score": 700, "probability": 0.3 }]. *)
Lemma adapted_is_canonical_witness :
  let v := adapted (VNum 700%float) (VNum 0.3%float) "MEDIUM" in
  getCreditScore render_placeholder read_placeholder
    (Fulfilled {| status := 200; data := v |})
  = Normal v.
Proof.
  exact (adapted_is_canonical render_placeholder read_placeholder legacy_reply
           (adapted (VNum 700%float) (VNum 0.3%float) "MEDIUM") 200 eq_refl eq_refl).
Defined.

(** X5 at [{ "score": 700, "probability": 0.3 }]. *)
Lemma legacy_fields_verbatim_witness :
  let v := adapted (VNum 700%float) (VNum 0.3%float) "MEDIUM" in
  get (data legacy_reply) "score" = Normal (get_opt v "credit_score") /\
  (forall probability,
     get (data legacy_reply) "probability" = Normal probability ->
     truthy probability = true ->
     get_opt v "probability_of_default" = probability).
Proof.
  exact (legacy_fields_verbatim render_placeholder read_placeholder legacy_reply
           (adapted (VNum 700%float) (VNum 0.3%float) "MEDIUM") eq_refl eq_refl).
Defined.

(** X7 at a 404 whose [detail] is an object. *)
Lemma non_list_detail_type_error_witness :
  getCreditScore render_placeholder read_placeholder object_detail_failure
  = Throw TypeError /\
  getAssetRecommendation render_placeholder object_detail_failure = Throw TypeError.
Proof.
  refine (non_list_detail_type_error render_placeholder read_placeholder
            "Request failed with status code 404"
            (Some {| status := 404;
                     data := VObj [("detail", VObj [("code", VStr "not_found")])] |})
            eq_refl _).
  intros elems. discriminate.
Defined.

(** X8 at a list whose second entry is [null]. *)
Lemma null_entry_type_error_witness :
  getCreditScore render_placeholder read_placeholder null_entry_failure
  = Throw TypeError /\
  getAssetRecommendation render_placeholder null_entry_failure = Throw TypeError.
Proof.
  refine (null_entry_type_error render_placeholder read_placeholder
            "Request failed with status code 422"
            (Some {| status := 422;
                     data := VObj [("detail",
                              VArr [ VObj [("msg", VStr "age required")]; VNull ])] |})
            [ VObj [("msg", VStr "age required")]; VNull ] eq_refl _).
  apply Exists_cons_tl, Exists_cons_hd. reflexivity.
Defined.

(** X11 at the two validation errors of [validation_failure]. *)
Lemma financial_health_list_detail_witness :
  getFinancialHealth render_placeholder validation_failure
  = Throw (Error "Financial Health API Error: [object Object],[object Object]").
Proof.
  refine (financial_health_list_detail render_placeholder
            "Request failed with status code 422"
            {| status := 422;
               data := VObj [("detail",
                        VArr [ VObj [("msg", VStr "age required")];
                               VObj [("msg", VStr "limit required")] ])] |}
            [ VObj [("msg", VStr "age required")];
              VObj [("msg", VStr "limit required")] ] eq_refl _).
  repeat constructor; eexists; split; reflexivity.
Defined.

(** X12 with the variable not set. *)
Lemma base_url_without_check_witness :
  exists host,
    API_BASE_URL render_placeholder VUndefined = Normal (host ++ "/api") /\
    (VUndefined = VUndefined -> host = "undefined") /\
    (forall url, VUndefined = VStr url -> host = url).
Proof.
  exact (base_url_without_check render_placeholder VUndefined (or_introl eq_refl)).
Defined.

(** X14 at a refused connection, from the initial state. *)
Lemma testBackend_failure_witness :
  let s' :=
    testBackend render_placeholder read_placeholder "" network_failure
      BackendIntegrationTest.initial in
  BackendIntegrationTest.result s' = VNull /\
  exists shown,
    BackendIntegrationTest.error s' = Some shown /\ shown <> "" /\
    ("Unknown API error" <> "" -> shown = "Unknown API error") /\
    ("Unknown API error" = "" -> shown = "Failed to connect to backend").
Proof.
  exact (testBackend_failure render_placeholder read_placeholder ""
           (Rejected (AxiosError "Network Error" None)) BackendIntegrationTest.initial
           (Error "Unknown API error") eq_refl).
Defined.


(** X17 at a legacy reply followed by a refused connection. *)
Lemma testBackend_stale_result_witness :
  let v := adapted (VNum 700%float) (VNum 0.3%float) "MEDIUM" in
  let s' :=
    testBackend render_placeholder read_placeholder "" network_failure
      (testBackend render_placeholder read_placeholder "" (Fulfilled legacy_reply)
         BackendIntegrationTest.initial) in
  BackendIntegrationTest.status s' = BackendIntegrationTest.ERROR /\
  BackendIntegrationTest.shows_error s' = true /\
  BackendIntegrationTest.result s' = v.
Proof.
  exact (testBackend_stale_result render_placeholder read_placeholder "" ""
           (Fulfilled legacy_reply) (Rejected (AxiosError "Network Error" None))
           BackendIntegrationTest.initial
           (adapted (VNum 700%float) (VNum 0.3%float) "MEDIUM")
           (Error "Unknown API error") eq_refl eq_refl).
Defined.
